(** * FloosakClient: a shallow embedding of [src/client.ts]

    The client wraps an axios instance.  It keeps a read-only configuration
    and one mutable field, the bearer token, and has one method per remote
    endpoint.  The embedding threads the object and the list of requests
    handed to the network through a small state-and-exception monad. *)

From Stdlib Require Import ZArith.
From stdpp Require Import base option list strings gmap.

Local Open Scope string_scope.
Local Open Scope list_scope.

(** ** JSON and the declared payload types *)

(** What [JSON.parse] produces and what axios serialises.  Numbers are kept
    to the integers: no method of the client computes with them. *)
#[local] Unset Elimination Schemes.
Inductive json : Type :=
| JNull
| JBool (b : bool)
| JNum (n : Z)
| JStr (s : string)
| JArr (items : list json)
| JObj (fields : list (string * json)).
#[local] Set Elimination Schemes.

(** The argument of the constructor, [FloosakClientConfig]. *)
Module FloosakClientConfig.
Record t : Type := mk {
  baseUrl : string;
  phone : string;
  shortCode : string;
  token : option string;  (* token?: string *)
}.
End FloosakClientConfig.

(** [Omit<FloosakClientConfig, 'token'>], the type of [this.config]. *)
Module Config.
Record t : Type := mk {
  baseUrl : string;
  phone : string;
  shortCode : string;
}.
End Config.

(** Modelled from the spec: [types.ts] is not part of the sources.  The
    verify-key response is [{key, ...account fields}]; the key is the bearer
    token, an opaque string, and [verifyAuthKey] guards its use, so it may be
    missing.  The remaining fields are carried along untouched. *)
Record VerifyKeyResponse : Type := {
  key : option string;
  account : list (string * json);
}.

(** Modelled from the spec: [types.ts] is not part of the sources.  The
    purchase request body is
    [{source_wallet_id, request_id, target_phone, amount, purpose}]. *)
Record PurchaseRequestPayload : Type := {
  source_wallet_id : Z;
  request_id : string;
  target_phone : string;
  amount : Z;
  purpose : string;
}.

(** The object literal a caller writes for a [PurchaseRequestPayload]. *)
Definition PurchaseRequestPayload_json (p : PurchaseRequestPayload) : json :=
  JObj [("source_wallet_id", JNum (source_wallet_id p));
        ("request_id", JStr (request_id p));
        ("target_phone", JStr (target_phone p));
        ("amount", JNum (amount p));
        ("purpose", JStr (purpose p))].

(** ** axios, as far as the client uses it *)

(** The request configuration that reaches the adapter. *)
Record AxiosRequestConfig : Type := {
  req_method : string;
  req_baseURL : string;
  req_url : string;
  req_headers : gmap string string;
  req_data : json;
}.

Record AxiosResponse (T : Type) : Type := {
  resp_status : Z;
  resp_data : T;
}.
Arguments resp_status {T} _.
Arguments resp_data {T} _.

(** What axios rejects with: a network failure has no status, a non-2xx
    answer carries the status and the body the server sent. *)
Record AxiosError : Type := {
  err_message : string;
  err_status : option Z;
  err_body : json;
}.

(** The outcome of handing one request to the network. *)
Inductive Settled (T : Type) : Type :=
| Fulfilled (response : AxiosResponse T)
| Rejected (reason : AxiosError).
Arguments Fulfilled {T} _.
Arguments Rejected {T} _.

(** The remote side for one call of [post<T>]: any function of the request. *)
Definition Net (T : Type) : Type := AxiosRequestConfig -> Settled T.

(** An axios instance: the defaults given to [axios.create] and the request
    interceptor registered with [interceptors.request.use].  The interceptor
    of the client is a closure over [this]; the value of [this.token] at the
    time of the request is its first argument. *)
Record AxiosInstance : Type := {
  defaults_baseURL : string;
  defaults_headers : gmap string string;
  request_interceptor :
    option string -> AxiosRequestConfig -> AxiosRequestConfig;
}.

(** ** The client object *)

Record FloosakClient : Type := {
  axiosInstance : AxiosInstance;
  token : option string;  (* private token?: string *)
  config : Config.t;
}.

(** The heap cell of the client together with the requests handed to the
    network so far, oldest first. *)
Record World : Type := {
  client : FloosakClient;
  wire : list AxiosRequestConfig;
}.

(** What a method can throw: an [Error] of the client's own, or whatever
    axios rejected with. *)
Inductive Thrown : Type :=
| Error (message : string)
| Transport (reason : AxiosError).

Inductive Completion (A : Type) : Type :=
| Returned (value : A)
| Threw (exn : Thrown).
Arguments Returned {A} _.
Arguments Threw {A} _.

Definition M (A : Type) : Type := World -> Completion A * World.

Definition ret {A} (a : A) : M A := fun w => (Returned a, w).

Definition bind {A B} (m : M A) (k : A -> M B) : M B :=
  fun w =>
    match m w with
    | (Returned a, w') => k a w'
    | (Threw e, w') => (Threw e, w')
    end.

Definition throw {A} (e : Thrown) : M A := fun w => (Threw e, w).

Definition this : M FloosakClient := fun w => (Returned (client w), w).

Definition set_token (t : option string) : M unit :=
  fun w =>
    (Returned tt,
     {| client := {| axiosInstance := axiosInstance (client w);
                     token := t;
                     config := config (client w) |};
        wire := wire w |}).

Declare Scope client_scope.
Delimit Scope client_scope with client.
Notation "'let*' x ':=' m 'in' k" := (bind m (fun x => k))
  (at level 10, x name, m at level 100, k at level 200) : client_scope.
Notation "m ';;' k" := (bind m (fun _ => k))
  (at level 100, k at level 200, right associativity) : client_scope.
Local Open Scope client_scope.

(** JavaScript truthiness at type [string | undefined]: [undefined] and the
    empty string are falsy, every other string is truthy. *)
Definition truthy (v : option string) : bool :=
  match v with
  | None => false
  | Some EmptyString => false
  | Some (String _ _) => true
  end.

(** String conversion in a template literal, at type [string | undefined]. *)
Definition template (v : option string) : string :=
  match v with
  | Some s => s
  | None => "undefined"
  end.

(** The interceptor of the constructor:
    [if (this.token) axiosConfig.headers.Authorization = `Bearer ${this.token}`]. *)
Definition authInterceptor
    (tok : option string) (axiosConfig : AxiosRequestConfig)
  : AxiosRequestConfig :=
  if truthy tok then
    {| req_method := req_method axiosConfig;
       req_baseURL := req_baseURL axiosConfig;
       req_url := req_url axiosConfig;
       req_headers :=
         <["Authorization" := "Bearer " +:+ template tok]>
           (req_headers axiosConfig);
       req_data := req_data axiosConfig |}
  else axiosConfig.

(** [new FloosakClient(config)]. *)
Definition constructor (cfg : FloosakClientConfig.t) : FloosakClient :=
  {| config :=
       {| Config.baseUrl := FloosakClientConfig.baseUrl cfg;
          Config.phone := FloosakClientConfig.phone cfg;
          Config.shortCode := FloosakClientConfig.shortCode cfg |};
     token := FloosakClientConfig.token cfg;
     axiosInstance :=
       {| defaults_baseURL := FloosakClientConfig.baseUrl cfg;
          defaults_headers :=
            <["Content-Type" := "application/json"]>
              (<["Accept" := "application/json"]>
                 (<["x-channel" := "merchant"]> ∅));
          request_interceptor := authInterceptor |} |}.

(** The request configuration of [instance.post(url, data)]: the defaults of
    the instance, then the interceptor, which sees the token of that moment. *)
Definition request_config (inst : AxiosInstance) (tok : option string)
    (url : string) (data : json) : AxiosRequestConfig :=
  request_interceptor inst tok
    {| req_method := "post";
       req_baseURL := defaults_baseURL inst;
       req_url := url;
       req_headers := defaults_headers inst;
       req_data := data |}.

(** The world after one more request went out. *)
Definition sent (w : World) (axiosConfig : AxiosRequestConfig) : World :=
  {| client := client w; wire := wire w ++ [axiosConfig] |}.

(** [instance.post<T>(url, data)]: the request is built, handed to the
    network once, and the promise settles the way the network says. *)
Definition post {T} (net : Net T) (inst : AxiosInstance)
    (url : string) (data : json) : M (AxiosResponse T) :=
  fun w =>
    let axiosConfig := request_config inst (token (client w)) url data in
    match net axiosConfig with
    | Fulfilled response => (Returned response, sent w axiosConfig)
    | Rejected reason => (Threw (Transport reason), sent w axiosConfig)
    end.

Definition not_authenticated : Thrown :=
  Error "Client is not authenticated. Please call requestAuthKey() and verifyAuthKey() first, or initialize the client with a valid token.".

Definition getToken : M (option string) :=
  let* c := this in ret (token c).

Definition ensureAuthenticated : M unit :=
  let* c := this in
  if negb (truthy (token c)) then throw not_authenticated else ret tt.

Definition requestAuthKey (net : Net json) : M json :=
  let* c := this in
  let payload :=
    JObj [("phone", JStr (Config.phone (config c)));
          ("short_code", JStr (Config.shortCode (config c)))] in
  let* response := post net (axiosInstance c) "/api/v1/request/key" payload in
  ret (resp_data response).

Definition verifyAuthKey (net : Net (option VerifyKeyResponse))
    (payload : json) : M (option VerifyKeyResponse) :=
  let* c := this in
  let* response := post net (axiosInstance c) "/api/v1/verify/key" payload in
  (match resp_data response with
   | Some data => if truthy (key data) then set_token (key data) else ret tt
   | None => ret tt
   end);;
  ret (resp_data response).

Definition purchaseRequest (net : Net json) (payload : json) : M json :=
  ensureAuthenticated;;
  let* c := this in
  let* response :=
    post net (axiosInstance c) "/api/v1/merchant/p2mcl" payload in
  ret (resp_data response).

Definition purchaseConfirm (net : Net json) (payload : json) : M json :=
  ensureAuthenticated;;
  let* c := this in
  let* response :=
    post net (axiosInstance c) "/api/v1/merchant/p2mcl/confirm" payload in
  ret (resp_data response).

Definition refund (net : Net json) (payload : json) : M json :=
  ensureAuthenticated;;
  let* c := this in
  let* response :=
    post net (axiosInstance c) "/api/v1/merchant/p2mcl/refund" payload in
  ret (resp_data response).

(** ** Sequences of calls *)

(** The remote side during one call: an answer for every request, at the
    response type of the method that is called. *)
Record Remote : Type := {
  answer : Net json;
  answer_verify : Net (option VerifyKeyResponse);
}.

(** The public methods, with their arguments. *)
Inductive Call : Type :=
| GetToken
| RequestAuthKey
| VerifyAuthKey (payload : json)
| PurchaseRequest (payload : json)
| PurchaseConfirm (payload : json)
| Refund (payload : json).

(** One call by a user of the client, who may catch what it throws and go
    on: the result is dropped, the state is kept. *)
Definition perform (r : Remote) (c : Call) (w : World) : World :=
  match c with
  | GetToken => snd (getToken w)
  | RequestAuthKey => snd (requestAuthKey (answer r) w)
  | VerifyAuthKey payload => snd (verifyAuthKey (answer_verify r) payload w)
  | PurchaseRequest payload => snd (purchaseRequest (answer r) payload w)
  | PurchaseConfirm payload => snd (purchaseConfirm (answer r) payload w)
  | Refund payload => snd (refund (answer r) payload w)
  end.

Definition run (script : list (Remote * Call)) (w : World) : World :=
  foldl (fun w rc => perform (fst rc) (snd rc) w) w script.

(** A freshly constructed client; nothing has been sent yet. *)
Definition boot (cfg : FloosakClientConfig.t) : World :=
  {| client := constructor cfg; wire := [] |}.


(** The three payment methods, to speak about them together. *)
Inductive PaymentOp : Type :=
| OpPurchaseRequest
| OpPurchaseConfirm
| OpRefund.

Definition payment (op : PaymentOp) : Net json -> json -> M json :=
  match op with
  | OpPurchaseRequest => purchaseRequest
  | OpPurchaseConfirm => purchaseConfirm
  | OpRefund => refund
  end.

(** The path each payment method posts to. *)
Definition endpoint (op : PaymentOp) : string :=
  match op with
  | OpPurchaseRequest => "/api/v1/merchant/p2mcl"
  | OpPurchaseConfirm => "/api/v1/merchant/p2mcl/confirm"
  | OpRefund => "/api/v1/merchant/p2mcl/refund"
  end.

(** How a settled request completes a method that returns [response.data]. *)
Definition relay {T} (s : Settled T) : Completion T :=
  match s with
  | Fulfilled response => Returned (resp_data response)
  | Rejected reason => Threw (Transport reason)
  end.

(** ** Concrete data for the examples *)

Definition merchant (tok : option string) : FloosakClientConfig.t :=
  {| FloosakClientConfig.baseUrl := "https://api.floosak.example";
     FloosakClientConfig.phone := "967705111013";
     FloosakClientConfig.shortCode := "777715";
     FloosakClientConfig.token := tok |}.

Definition replies {T} (data : T) : Net T :=
  fun _ => Fulfilled {| resp_status := 200; resp_data := data |}.

Definition fails {T} (reason : AxiosError) : Net T :=
  fun _ => Rejected reason.

Definition unauthorized : AxiosError :=
  {| err_message := "Request failed with status code 401";
     err_status := Some 401%Z;
     err_body := JObj [("message", JStr "Unauthenticated.")] |}.

(** A server that answers every request with a 200 and an empty body. *)
Definition quiet : Remote :=
  {| answer := replies JNull; answer_verify := replies None |}.

(** A server that rejects everything but answers verify-key with an empty
    key. *)
Definition stingy : Remote :=
  {| answer := fails unauthorized;
     answer_verify := replies (Some {| key := Some ""; account := [] |}) |}.

(** Clients constructed with the empty token, and with a token. *)
Definition empty_world : World := boot (merchant (Some "")).
Definition old_world : World := boot (merchant (Some "old-token")).
Definition token_world : World := boot (merchant (Some "eyJ0eX")).

Definition fresh_key : VerifyKeyResponse :=
  {| key := Some "eyJ0eX"; account := [("id", JNum 7)] |}.
Definition empty_key : VerifyKeyResponse :=
  {| key := Some ""; account := [] |}.
Definition no_key : VerifyKeyResponse :=
  {| key := None; account := [("message", JStr "pending")] |}.

Definition purchase_example : PurchaseRequestPayload :=
  {| source_wallet_id := 144;
     request_id := "r1";
     target_phone := "967777841622";
     amount := 100;
     purpose := "x" |}.

(** ** Kinds of calls *)

(** The call that can store a token. *)
Definition is_verify (c : Call) : bool :=
  match c with
  | VerifyAuthKey _ => true
  | _ => false
  end.

(** The two steps of authentication, which run without the guard. *)
Definition auth_step (c : Call) : bool :=
  match c with
  | RequestAuthKey | VerifyAuthKey _ => true
  | _ => false
  end.

(** The calls that go to the network, that is, all but [getToken]. *)
Definition is_remote (c : Call) : bool :=
  match c with
  | GetToken => false
  | _ => true
  end.

(** The paths that occur in the methods of the client. *)
Definition paths : list string :=
  ["/api/v1/request/key";
   "/api/v1/verify/key";
   "/api/v1/merchant/p2mcl";
   "/api/v1/merchant/p2mcl/confirm";
   "/api/v1/merchant/p2mcl/refund"].

(** A server that hands out a key on verify-key and accepts the rest. *)
Definition generous : Remote :=
  {| answer := replies JNull; answer_verify := replies (Some fresh_key) |}.

(** * Properties *)

(** ** Truthiness and the interceptor *)

Lemma truthy_true (v : option string) :
  truthy v = true <-> exists t, v = Some t /\ t <> "".
Proof.
  split.
  - destruct v as [[|a t]|]; simpl; intros H; try discriminate.
    exists (String a t). split; [reflexivity | discriminate].
  - intros (t & -> & Ht). destruct t; [congruence | reflexivity].
Qed.

Lemma truthy_false (v : option string) :
  truthy v = false <-> v = None \/ v = Some "".
Proof.
  split.
  - destruct v as [[|a t]|]; simpl; intros H; try discriminate; auto.
  - intros [-> | ->]; reflexivity.
Qed.

Lemma authInterceptor_truthy (t : string) (axiosConfig : AxiosRequestConfig) :
  t <> "" ->
  req_headers (authInterceptor (Some t) axiosConfig)
  = <["Authorization" := "Bearer " +:+ t]> (req_headers axiosConfig).
Proof.
  intros Ht. unfold authInterceptor.
  destruct t; [congruence | reflexivity].
Qed.

Lemma authInterceptor_falsy (tok : option string)
    (axiosConfig : AxiosRequestConfig) :
  truthy tok = false -> authInterceptor tok axiosConfig = axiosConfig.
Proof. intros H. unfold authInterceptor. now rewrite H. Qed.

(** The interceptor touches nothing but the headers. *)
Lemma authInterceptor_frame (tok : option string)
    (axiosConfig : AxiosRequestConfig) :
  req_method (authInterceptor tok axiosConfig) = req_method axiosConfig
  /\ req_baseURL (authInterceptor tok axiosConfig) = req_baseURL axiosConfig
  /\ req_url (authInterceptor tok axiosConfig) = req_url axiosConfig
  /\ req_data (authInterceptor tok axiosConfig) = req_data axiosConfig.
Proof. unfold authInterceptor. destruct (truthy tok); simpl; auto. Qed.

(** Of the headers, it touches [Authorization] only. *)
Lemma authInterceptor_other_header (tok : option string)
    (axiosConfig : AxiosRequestConfig) (name : string) :
  name <> "Authorization" ->
  req_headers (authInterceptor tok axiosConfig) !! name
  = req_headers axiosConfig !! name.
Proof.
  intros Hne. unfold authInterceptor. destruct (truthy tok); simpl; auto.
  now rewrite lookup_insert_ne.
Qed.

(** ** One equation per method *)

Lemma ensureAuthenticated_eq (w : World) :
  ensureAuthenticated w
  = if truthy (token (client w)) then (Returned tt, w)
    else (Threw not_authenticated, w).
Proof.
  unfold ensureAuthenticated, bind, this, throw, ret.
  now destruct (truthy (token (client w))).
Qed.

Lemma requestAuthKey_eq (net : Net json) (w : World) :
  let axiosConfig :=
    request_config (axiosInstance (client w)) (token (client w))
      "/api/v1/request/key"
      (JObj [("phone", JStr (Config.phone (config (client w))));
             ("short_code", JStr (Config.shortCode (config (client w))))]) in
  requestAuthKey net w = (relay (net axiosConfig), sent w axiosConfig).
Proof.
  unfold requestAuthKey, bind, this, post, ret, relay. simpl.
  now destruct (net _).
Qed.

Lemma payment_eq (op : PaymentOp) (net : Net json) (payload : json)
    (w : World) :
  let axiosConfig :=
    request_config (axiosInstance (client w)) (token (client w))
      (endpoint op) payload in
  payment op net payload w
  = if truthy (token (client w))
    then (relay (net axiosConfig), sent w axiosConfig)
    else (Threw not_authenticated, w).
Proof.
  destruct op; simpl;
    unfold purchaseRequest, purchaseConfirm, refund, bind;
    rewrite ensureAuthenticated_eq;
    destruct (truthy (token (client w))); try reflexivity;
    unfold this, post, ret, relay; simpl; now destruct (net _).
Qed.

(** What [verifyAuthKey] leaves in [this.token], given the old value and the
    body of the response. *)
Lemma verifyAuthKey_eq (net : Net (option VerifyKeyResponse))
    (payload : json) (w : World) :
  let axiosConfig :=
    request_config (axiosInstance (client w)) (token (client w))
      "/api/v1/verify/key" payload in
  verifyAuthKey net payload w
  = match net axiosConfig with
    | Fulfilled response =>
        (Returned (resp_data response),
         match resp_data response with
         | Some data =>
             if truthy (key data)
             then snd (set_token (key data) (sent w axiosConfig))
             else sent w axiosConfig
         | None => sent w axiosConfig
         end)
    | Rejected reason => (Threw (Transport reason), sent w axiosConfig)
    end.
Proof.
  unfold verifyAuthKey, bind, this, post, ret. simpl.
  destruct (net _) as [response|reason]; [|reflexivity].
  destruct (resp_data response) as [data|]; [|reflexivity].
  now destruct (truthy (key data)).
Qed.

Lemma getToken_eq (w : World) : getToken w = (Returned (token (client w)), w).
Proof. reflexivity. Qed.

(** ** The authentication guard *)

(** C1, as amended: each of [purchaseRequest], [purchaseConfirm] and [refund]
    throws the not-authenticated error exactly when the token is absent or
    the empty string; it then throws before anything is sent and leaves the
    state as it was.  With a non-empty token the request is built and handed
    to the network, and the call completes the way the network settles. *)
Theorem payment_guard (op : PaymentOp) (net : Net json) (payload : json)
    (w : World) :
  let axiosConfig :=
    request_config (axiosInstance (client w)) (token (client w))
      (endpoint op) payload in
  (fst (payment op net payload w) = Threw not_authenticated
   <-> token (client w) = None \/ token (client w) = Some "")
  /\ (token (client w) = None \/ token (client w) = Some "" ->
      payment op net payload w = (Threw not_authenticated, w))
  /\ (forall t, token (client w) = Some t -> t <> "" ->
      payment op net payload w
      = (relay (net axiosConfig), sent w axiosConfig)).
Proof.
  intros axiosConfig. pose proof (payment_eq op net payload w) as E.
  simpl in E. fold axiosConfig in E. rewrite E. clear E.
  rewrite <- truthy_false.
  destruct (truthy (token (client w))) eqn:Ht.
  - repeat split; try discriminate.
    destruct (net axiosConfig); simpl; discriminate.
  - repeat split; auto.
    intros t Hsome Hne.
    assert (truthy (token (client w)) = true) as Hyes
      by (apply truthy_true; eauto).
    congruence.
Qed.

(** C1 as stated fails for the empty token: a token is there, [getToken]
    returns it, and still the payment call throws not-authenticated. *)
Lemma payment_guard_counterexample :
  fst (getToken empty_world) = Returned (Some "")
  /\ ~ (fst (purchaseRequest (replies JNull) JNull empty_world)
        = Threw not_authenticated
        <-> token (client empty_world) = None).
Proof.
  split; [reflexivity|].
  intros [Hraises _]. specialize (Hraises eq_refl). discriminate.
Qed.

(** ** [verifyAuthKey] and the token *)

(** C2, as amended: when the response carries a non-empty [key],
    [verifyAuthKey] stores it over whatever token there was, and [getToken]
    then returns exactly it; the full response is returned whether or not it
    carries a key. *)
Theorem verifyAuthKey_stores_key (net : Net (option VerifyKeyResponse))
    (payload : json) (w : World) (response : AxiosResponse _) :
  net (request_config (axiosInstance (client w)) (token (client w))
         "/api/v1/verify/key" payload) = Fulfilled response ->
  fst (verifyAuthKey net payload w) = Returned (resp_data response)
  /\ (forall data k,
        resp_data response = Some data -> key data = Some k -> k <> "" ->
        fst (getToken (snd (verifyAuthKey net payload w)))
        = Returned (Some k)).
Proof.
  intros Hnet. pose proof (verifyAuthKey_eq net payload w) as E.
  simpl in E. rewrite Hnet in E. rewrite E. simpl. split; [reflexivity|].
  intros data k -> Hkey Hne.
  assert (truthy (key data) = true) as -> by (apply truthy_true; eauto).
  simpl. now rewrite Hkey.
Qed.

Lemma verifyAuthKey_stores_key_witness :
  fst (verifyAuthKey (replies (Some fresh_key)) (JObj []) old_world)
  = Returned (Some fresh_key)
  /\ fst (getToken
            (snd (verifyAuthKey (replies (Some fresh_key)) (JObj [])
                    old_world)))
     = Returned (Some "eyJ0eX").
Proof.
  destruct (verifyAuthKey_stores_key (replies (Some fresh_key)) (JObj [])
              old_world {| resp_status := 200; resp_data := Some fresh_key |}
              eq_refl)
    as [Hret Hstore].
  split; [exact Hret|].
  apply (Hstore fresh_key "eyJ0eX");
    [reflexivity | reflexivity | discriminate].
Defined.

(** C2 as stated fails for a response whose [key] is the empty string: the
    field is there, and the old token stays. *)
Lemma verifyAuthKey_stores_key_counterexample :
  fst (getToken
         (snd (verifyAuthKey (replies (Some empty_key)) (JObj []) old_world)))
  = Returned (Some "old-token")
  /\ ~ (forall k,
          key empty_key = Some k ->
          fst (getToken
                 (snd (verifyAuthKey (replies (Some empty_key)) (JObj [])
                         old_world)))
          = Returned (Some k)).
Proof.
  split; [reflexivity|].
  intros H. specialize (H "" eq_refl). discriminate.
Qed.

(** C3: when the response has no body or no [key], the call leaves the
    client as it was, so [getToken] returns afterwards what it returned
    before. *)
Theorem verifyAuthKey_without_key (net : Net (option VerifyKeyResponse))
    (payload : json) (w : World) (response : AxiosResponse _) :
  net (request_config (axiosInstance (client w)) (token (client w))
         "/api/v1/verify/key" payload) = Fulfilled response ->
  (resp_data response = None
   \/ exists data, resp_data response = Some data /\ key data = None) ->
  fst (getToken (snd (verifyAuthKey net payload w))) = fst (getToken w)
  /\ client (snd (verifyAuthKey net payload w)) = client w.
Proof.
  intros Hnet Hnokey. pose proof (verifyAuthKey_eq net payload w) as E.
  simpl in E. rewrite Hnet in E. rewrite E. simpl.
  destruct Hnokey as [-> | (data & -> & Hkey)].
  - split; reflexivity.
  - rewrite Hkey. simpl. split; reflexivity.
Qed.

Lemma verifyAuthKey_without_key_witness :
  fst (getToken
         (snd (verifyAuthKey (replies (Some no_key)) (JObj []) old_world)))
  = Returned (Some "old-token").
Proof.
  apply (verifyAuthKey_without_key (replies (Some no_key)) (JObj [])
           old_world {| resp_status := 200; resp_data := Some no_key |}
           eq_refl).
  right. exists no_key. split; reflexivity.
Defined.

(** ** What a call can and cannot change *)

(** A call leaves the axios instance and the configuration alone. *)
Lemma perform_frame (r : Remote) (c : Call) (w : World) :
  axiosInstance (client (perform r c w)) = axiosInstance (client w)
  /\ config (client (perform r c w)) = config (client w).
Proof.
  destruct c as [| |payload|payload|payload|payload]; simpl.
  - auto.
  - pose proof (requestAuthKey_eq (answer r) w) as E. simpl in E.
    rewrite E. auto.
  - pose proof (verifyAuthKey_eq (answer_verify r) payload w) as E.
    simpl in E. rewrite E.
    destruct (answer_verify r _) as [response|reason]; simpl; auto.
    destruct (resp_data response) as [data|]; simpl; auto.
    destruct (truthy (key data)); simpl; auto.
  - pose proof (payment_eq OpPurchaseRequest (answer r) payload w) as E.
    simpl in E. rewrite E. destruct (truthy _); simpl; auto.
  - pose proof (payment_eq OpPurchaseConfirm (answer r) payload w) as E.
    simpl in E. rewrite E. destruct (truthy _); simpl; auto.
  - pose proof (payment_eq OpRefund (answer r) payload w) as E.
    simpl in E. rewrite E. destruct (truthy _); simpl; auto.
Qed.

(** A call keeps the token, unless it is a [verifyAuthKey] whose response
    carries a non-empty key, which becomes the token. *)
Lemma perform_token (r : Remote) (c : Call) (w : World) :
  token (client (perform r c w)) = token (client w)
  \/ exists payload response data k,
       c = VerifyAuthKey payload
       /\ answer_verify r
            (request_config (axiosInstance (client w)) (token (client w))
               "/api/v1/verify/key" payload) = Fulfilled response
       /\ resp_data response = Some data
       /\ key data = Some k /\ k <> ""
       /\ token (client (perform r c w)) = Some k.
Proof.
  destruct c as [| |payload|payload|payload|payload]; simpl.
  - auto.
  - pose proof (requestAuthKey_eq (answer r) w) as E. simpl in E.
    rewrite E. auto.
  - pose proof (verifyAuthKey_eq (answer_verify r) payload w) as E.
    simpl in E. rewrite E.
    destruct (answer_verify r _) as [response|reason] eqn:Hnet; simpl; auto.
    destruct (resp_data response) as [data|] eqn:Hdata; simpl; auto.
    destruct (truthy (key data)) eqn:Hkey; simpl; auto.
    right. apply truthy_true in Hkey as (k & Hk & Hne).
    exists payload, response, data, k. rewrite Hk. auto 10.
  - pose proof (payment_eq OpPurchaseRequest (answer r) payload w) as E.
    simpl in E. rewrite E. destruct (truthy _); simpl; auto.
  - pose proof (payment_eq OpPurchaseConfirm (answer r) payload w) as E.
    simpl in E. rewrite E. destruct (truthy _); simpl; auto.
  - pose proof (payment_eq OpRefund (answer r) payload w) as E.
    simpl in E. rewrite E. destruct (truthy _); simpl; auto.
Qed.

(** A call sends nothing or one request, built from the state it starts in. *)
Lemma perform_wire (r : Remote) (c : Call) (w : World) :
  wire (perform r c w) = wire w
  \/ exists url data,
       wire (perform r c w)
       = wire w ++ [request_config (axiosInstance (client w))
                      (token (client w)) url data].
Proof.
  destruct c as [| |payload|payload|payload|payload]; simpl.
  - auto.
  - pose proof (requestAuthKey_eq (answer r) w) as E. simpl in E.
    rewrite E. simpl. eauto.
  - pose proof (verifyAuthKey_eq (answer_verify r) payload w) as E.
    simpl in E. rewrite E. right. exists "/api/v1/verify/key", payload.
    destruct (answer_verify r _) as [response|reason]; simpl; auto.
    destruct (resp_data response) as [data|]; simpl; auto.
    destruct (truthy (key data)); simpl; auto.
  - pose proof (payment_eq OpPurchaseRequest (answer r) payload w) as E.
    simpl in E. rewrite E. destruct (truthy _); simpl; eauto.
  - pose proof (payment_eq OpPurchaseConfirm (answer r) payload w) as E.
    simpl in E. rewrite E. destruct (truthy _); simpl; eauto.
  - pose proof (payment_eq OpRefund (answer r) payload w) as E.
    simpl in E. rewrite E. destruct (truthy _); simpl; eauto.
Qed.

Lemma run_cons (rc : Remote * Call) (script : list (Remote * Call))
    (w : World) :
  run (rc :: script) w = run script (perform (fst rc) (snd rc) w).
Proof. reflexivity. Qed.

Lemma run_frame (script : list (Remote * Call)) (w : World) :
  axiosInstance (client (run script w)) = axiosInstance (client w)
  /\ config (client (run script w)) = config (client w).
Proof.
  revert w. induction script as [|[r c] script IH]; intros w.
  - split; reflexivity.
  - rewrite run_cons. simpl.
    destruct (IH (perform r c w)) as [Hinst Hconf].
    destruct (perform_frame r c w) as [Hinst' Hconf'].
    split; congruence.
Qed.

Lemma run_truthy (script : list (Remote * Call)) (w : World) :
  truthy (token (client w)) = true ->
  truthy (token (client (run script w))) = true.
Proof.
  revert w. induction script as [|[r c] script IH]; intros w Hw.
  - exact Hw.
  - rewrite run_cons. simpl. apply IH.
    destruct (perform_token r c w)
      as [-> | (payload & response & data & k & _ & _ & _ & _ & Hne & ->)].
    + exact Hw.
    + apply truthy_true. eauto.
Qed.

(** ** Requests of a constructed client *)

(** Every request of a client made by the constructor, whatever was called
    on it before: method, base URL, path and body are the ones given, the
    three fixed headers are there, and [Authorization] follows the token. *)
Lemma constructed_request (cfg : FloosakClientConfig.t)
    (script : list (Remote * Call)) (tok : option string)
    (url : string) (data : json) :
  let axiosConfig :=
    request_config (axiosInstance (client (run script (boot cfg))))
      tok url data in
  req_method axiosConfig = "post"
  /\ req_baseURL axiosConfig = FloosakClientConfig.baseUrl cfg
  /\ req_url axiosConfig = url
  /\ req_data axiosConfig = data
  /\ req_headers axiosConfig !! "Content-Type" = Some "application/json"
  /\ req_headers axiosConfig !! "Accept" = Some "application/json"
  /\ req_headers axiosConfig !! "x-channel" = Some "merchant"
  /\ (forall t, tok = Some t -> t <> "" ->
      req_headers axiosConfig !! "Authorization" = Some ("Bearer " +:+ t))
  /\ (truthy tok = false -> req_headers axiosConfig !! "Authorization" = None).
Proof.
  destruct (run_frame script (boot cfg)) as [-> _]. simpl.
  unfold request_config. simpl.
  match goal with
  | |- context [authInterceptor tok ?c] => set (base := c)
  end.
  destruct (authInterceptor_frame tok base) as (-> & -> & -> & ->).
  repeat split; try reflexivity.
  - rewrite authInterceptor_other_header by discriminate. reflexivity.
  - rewrite authInterceptor_other_header by discriminate. reflexivity.
  - rewrite authInterceptor_other_header by discriminate. reflexivity.
  - intros t -> Ht. rewrite authInterceptor_truthy by exact Ht.
    apply lookup_insert_eq.
  - intros Hfalsy. rewrite authInterceptor_falsy by exact Hfalsy.
    reflexivity.
Qed.

(** ** [requestAuthKey] *)

(** C4: on a client constructed from [cfg], whatever was called before and
    whatever the token is, [requestAuthKey] sends one POST to
    [/api/v1/request/key] whose body is
    [{phone: cfg.phone, short_code: cfg.shortCode}], and it returns the data
    of the response as the server gave it. *)
Theorem requestAuthKey_relays (cfg : FloosakClientConfig.t)
    (script : list (Remote * Call)) (net : Net json) :
  let w := run script (boot cfg) in
  exists axiosConfig,
    requestAuthKey net w = (relay (net axiosConfig), sent w axiosConfig)
    /\ (forall response, net axiosConfig = Fulfilled response ->
        fst (requestAuthKey net w) = Returned (resp_data response))
    /\ req_method axiosConfig = "post"
    /\ req_baseURL axiosConfig = FloosakClientConfig.baseUrl cfg
    /\ req_url axiosConfig = "/api/v1/request/key"
    /\ req_data axiosConfig
       = JObj [("phone", JStr (FloosakClientConfig.phone cfg));
               ("short_code", JStr (FloosakClientConfig.shortCode cfg))].
Proof.
  intros w. pose proof (requestAuthKey_eq net w) as E. simpl in E.
  eexists. split; [exact E|]. rewrite E. simpl.
  split; [intros response ->; reflexivity|].
  subst w.
  destruct (run_frame script (boot cfg)) as [_ Hconf].
  match goal with
  | |- context [request_config _ ?tok ?url ?data] =>
      destruct (constructed_request cfg script tok url data)
        as (Hm & Hb & Hu & Hd & _)
  end.
  rewrite Hm, Hb, Hu, Hd, Hconf. auto.
Qed.

(** The example of the specification: phone 967705111013, short code 777715,
    and a server that answers [{request_id: "abc"}]. *)
Example requestAuthKey_example :
  let data := JObj [("request_id", JStr "abc")] in
  let out := requestAuthKey (replies data) (boot (merchant None)) in
  fst out = Returned data
  /\ map (fun q => (req_method q, req_url q, req_data q)) (wire (snd out))
     = [("post", "/api/v1/request/key",
         JObj [("phone", JStr "967705111013");
               ("short_code", JStr "777715")])].
Proof. split; reflexivity. Qed.

(** ** Headers *)

(** C5, as amended: every request a call sends on a constructed client
    carries [Content-Type: application/json], [Accept: application/json] and
    [x-channel: merchant], whatever the token; when the token at that moment
    is a non-empty string [t], the request also carries
    [Authorization: Bearer t], and when it is absent or empty the request
    has no [Authorization] header. *)
Theorem outgoing_headers (cfg : FloosakClientConfig.t)
    (script : list (Remote * Call)) (r : Remote) (c : Call) :
  let w := run script (boot cfg) in
  exists out,
    wire (perform r c w) = wire w ++ out
    /\ Forall (fun axiosConfig =>
         req_headers axiosConfig !! "Content-Type" = Some "application/json"
         /\ req_headers axiosConfig !! "Accept" = Some "application/json"
         /\ req_headers axiosConfig !! "x-channel" = Some "merchant"
         /\ (forall t, token (client w) = Some t -> t <> "" ->
             req_headers axiosConfig !! "Authorization"
             = Some ("Bearer " +:+ t))
         /\ (token (client w) = None \/ token (client w) = Some "" ->
             req_headers axiosConfig !! "Authorization" = None)) out.
Proof.
  intros w. destruct (perform_wire r c w) as [Hsame | (url & data & Hone)].
  - exists []. rewrite app_nil_r. split; [exact Hsame | constructor].
  - eexists. split; [exact Hone|].
    constructor; [|constructor]. subst w.
    destruct (constructed_request cfg script
                (token (client (run script (boot cfg)))) url data)
      as (_ & _ & _ & _ & Hct & Hacc & Hch & Hauth & Hnone).
    repeat split; auto.
    intros Hfalsy. apply Hnone, truthy_false, Hfalsy.
Qed.

(** C5 as stated fails for the empty token: the token is there, and the
    request goes out without an [Authorization] header. *)
Lemma outgoing_headers_counterexample :
  exists axiosConfig,
    wire (perform quiet RequestAuthKey empty_world)
    = wire empty_world ++ [axiosConfig]
    /\ ~ (forall t, token (client empty_world) = Some t ->
          req_headers axiosConfig !! "Authorization"
          = Some ("Bearer " +:+ t)).
Proof.
  eexists. split; [reflexivity|].
  intros H. specialize (H "" eq_refl). vm_compute in H. discriminate.
Qed.

(** ** Transport errors *)

(** C6: when the network rejects the request of a call with [reason], the
    call throws exactly [reason]; the client is as before, and the one
    request is all that was sent.  For the payment methods this is about the
    calls that pass the guard, the others send nothing. *)
Theorem transport_error_propagates (w : World) (reason : AxiosError) :
  (forall net,
     net (request_config (axiosInstance (client w)) (token (client w))
            "/api/v1/request/key"
            (JObj [("phone", JStr (Config.phone (config (client w))));
                   ("short_code",
                    JStr (Config.shortCode (config (client w))))]))
     = Rejected reason ->
     exists axiosConfig,
       requestAuthKey net w
       = (Threw (Transport reason), sent w axiosConfig))
  /\ (forall net payload,
        net (request_config (axiosInstance (client w)) (token (client w))
               "/api/v1/verify/key" payload) = Rejected reason ->
        exists axiosConfig,
          verifyAuthKey net payload w
          = (Threw (Transport reason), sent w axiosConfig))
  /\ (forall op net payload,
        fst (ensureAuthenticated w) = Returned tt ->
        net (request_config (axiosInstance (client w)) (token (client w))
               (endpoint op) payload) = Rejected reason ->
        exists axiosConfig,
          payment op net payload w
          = (Threw (Transport reason), sent w axiosConfig)).
Proof.
  split; [|split].
  - intros net Hnet. pose proof (requestAuthKey_eq net w) as E. simpl in E.
    rewrite Hnet in E. eauto.
  - intros net payload Hnet.
    pose proof (verifyAuthKey_eq net payload w) as E. simpl in E.
    rewrite Hnet in E. eauto.
  - intros op net payload Hauth Hnet.
    pose proof (payment_eq op net payload w) as E. simpl in E.
    rewrite ensureAuthenticated_eq in Hauth.
    destruct (truthy (token (client w))); [|discriminate].
    rewrite Hnet in E. eauto.
Qed.

Lemma transport_error_propagates_witness :
  (exists axiosConfig,
     requestAuthKey (fails unauthorized) token_world
     = (Threw (Transport unauthorized), sent token_world axiosConfig))
  /\ (exists axiosConfig,
        verifyAuthKey (fails unauthorized) (JObj []) token_world
        = (Threw (Transport unauthorized), sent token_world axiosConfig))
  /\ (exists axiosConfig,
        payment OpRefund (fails unauthorized) (JObj []) token_world
        = (Threw (Transport unauthorized), sent token_world axiosConfig)).
Proof.
  destruct (transport_error_propagates token_world unauthorized)
    as (Hreq & Hver & Hpay).
  split; [|split].
  - apply Hreq. reflexivity.
  - apply Hver. reflexivity.
  - apply Hpay; reflexivity.
Defined.

(** ** The configuration *)

(** C7: whatever is called on a client, in whatever order and with whatever
    answers from the network, [baseUrl], [phone] and [shortCode] stay what
    the constructor was given, and so does the axios instance; the token is
    the one field a call can change, and [verifyAuthKey] does change it. *)
Theorem config_immutable (cfg : FloosakClientConfig.t)
    (script : list (Remote * Call)) :
  (forall w,
     config (client (run script w)) = config (client w)
     /\ axiosInstance (client (run script w)) = axiosInstance (client w))
  /\ Config.baseUrl (config (client (run script (boot cfg))))
     = FloosakClientConfig.baseUrl cfg
  /\ Config.phone (config (client (run script (boot cfg))))
     = FloosakClientConfig.phone cfg
  /\ Config.shortCode (config (client (run script (boot cfg))))
     = FloosakClientConfig.shortCode cfg
  /\ exists r payload,
       token (client (run [(r, VerifyAuthKey payload)] (boot (merchant None))))
       <> token (client (boot (merchant None))).
Proof.
  split; [|repeat split].
  - intros w. destruct (run_frame script w). auto.
  - destruct (run_frame script (boot cfg)) as [_ ->]. reflexivity.
  - destruct (run_frame script (boot cfg)) as [_ ->]. reflexivity.
  - destruct (run_frame script (boot cfg)) as [_ ->]. reflexivity.
  - exists {| answer := replies JNull;
              answer_verify := replies (Some fresh_key) |},
           (JObj []).
    vm_compute. discriminate.
Qed.

(** ** [purchaseRequest] *)

(** C8: on a constructed client that passes the guard, [purchaseRequest]
    sends one POST to [/api/v1/merchant/p2mcl] whose body is the payload it
    was given, and completes the way the network settles. *)
Theorem purchaseRequest_forwards_payload (cfg : FloosakClientConfig.t)
    (script : list (Remote * Call)) (net : Net json) (payload : json) :
  fst (ensureAuthenticated (run script (boot cfg))) = Returned tt ->
  exists axiosConfig,
    purchaseRequest net payload (run script (boot cfg))
    = (relay (net axiosConfig), sent (run script (boot cfg)) axiosConfig)
    /\ req_method axiosConfig = "post"
    /\ req_baseURL axiosConfig = FloosakClientConfig.baseUrl cfg
    /\ req_url axiosConfig = "/api/v1/merchant/p2mcl"
    /\ req_data axiosConfig = payload.
Proof.
  intros Hauth. rewrite ensureAuthenticated_eq in Hauth.
  pose proof (payment_eq OpPurchaseRequest net payload
                (run script (boot cfg))) as E.
  simpl in E.
  destruct (truthy (token (client (run script (boot cfg)))));
    [|discriminate].
  eexists. split; [exact E|].
  match goal with
  | |- context [request_config _ ?tok ?url ?data] =>
      destruct (constructed_request cfg script tok url data)
        as (Hm & Hb & Hu & Hd & _)
  end.
  auto.
Qed.

(** The example of the specification, on a client constructed with a token:
    the body on the wire is the object the caller passed. *)
Lemma purchaseRequest_forwards_payload_witness :
  fst (ensureAuthenticated (run [] (boot (merchant (Some "eyJ0eX")))))
  = Returned tt
  /\ exists axiosConfig,
       wire (snd (purchaseRequest (replies JNull)
                    (PurchaseRequestPayload_json purchase_example)
                    (run [] (boot (merchant (Some "eyJ0eX"))))))
       = [axiosConfig]
       /\ req_url axiosConfig = "/api/v1/merchant/p2mcl"
       /\ req_data axiosConfig
          = JObj [("source_wallet_id", JNum 144);
                  ("request_id", JStr "r1");
                  ("target_phone", JStr "967777841622");
                  ("amount", JNum 100);
                  ("purpose", JStr "x")].
Proof.
  split; [reflexivity|].
  destruct (purchaseRequest_forwards_payload (merchant (Some "eyJ0eX")) []
              (replies JNull) (PurchaseRequestPayload_json purchase_example)
              eq_refl)
    as (axiosConfig & E & _ & _ & Hurl & Hdata).
  exists axiosConfig. rewrite E. simpl. auto.
Defined.

(** ** The empty token *)

(** C9: on a constructed client whose token is the empty string, each
    payment method throws not-authenticated and leaves the state as it was,
    so nothing is sent; the requests of the two other methods carry no
    [Authorization] header, and every request is the one a client without a
    token would send. *)
Theorem empty_token_as_absent (cfg : FloosakClientConfig.t)
    (script : list (Remote * Call)) :
  token (client (run script (boot cfg))) = Some "" ->
  (forall op net payload,
     payment op net payload (run script (boot cfg))
     = (Threw not_authenticated, run script (boot cfg)))
  /\ (forall net, exists axiosConfig,
        requestAuthKey net (run script (boot cfg))
        = (relay (net axiosConfig), sent (run script (boot cfg)) axiosConfig)
        /\ req_headers axiosConfig !! "Authorization" = None)
  /\ (forall net payload, exists axiosConfig,
        wire (snd (verifyAuthKey net payload (run script (boot cfg))))
        = wire (run script (boot cfg)) ++ [axiosConfig]
        /\ req_headers axiosConfig !! "Authorization" = None)
  /\ (forall url data,
        request_config (axiosInstance (client (run script (boot cfg))))
          (token (client (run script (boot cfg)))) url data
        = request_config (axiosInstance (client (run script (boot cfg))))
            None url data).
Proof.
  intros Hempty. split; [|split; [|split]].
  - intros op net payload.
    pose proof (payment_eq op net payload (run script (boot cfg))) as E.
    simpl in E. rewrite E, Hempty. reflexivity.
  - intros net.
    pose proof (requestAuthKey_eq net (run script (boot cfg))) as E.
    simpl in E. eexists. split; [exact E|].
    rewrite Hempty. now apply constructed_request.
  - intros net payload.
    pose proof (verifyAuthKey_eq net payload (run script (boot cfg))) as E.
    simpl in E. eexists. split.
    + rewrite E. destruct (net _) as [response|reason]; simpl; auto.
      destruct (resp_data response) as [data|]; simpl; auto.
      destruct (truthy (key data)); simpl; auto.
    + rewrite Hempty. now apply constructed_request.
  - intros url data. rewrite Hempty.
    destruct (run_frame script (boot cfg)) as [-> _]. reflexivity.
Qed.

Lemma empty_token_as_absent_witness :
  token (client (run [] (boot (merchant (Some ""))))) = Some ""
  /\ payment OpPurchaseConfirm (replies JNull) (JObj [])
       (run [] (boot (merchant (Some ""))))
     = (Threw not_authenticated, run [] (boot (merchant (Some "")))).
Proof.
  split; [reflexivity|].
  apply (empty_token_as_absent (merchant (Some "")) [] eq_refl).
Defined.

(** ** The token, once set *)

(** C10: once the token is a non-empty string it stays one, through every
    sequence of calls and whatever the network answers: a call either keeps
    the token or is a [verifyAuthKey] that stores the non-empty key of its
    response. *)
Theorem token_stays_nonempty (script : list (Remote * Call)) (w : World)
    (t : string) :
  token (client w) = Some t -> t <> "" ->
  (exists t', token (client (run script w)) = Some t' /\ t' <> "")
  /\ (forall r c,
        token (client (perform r c w)) = Some t
        \/ exists payload response data k,
             c = VerifyAuthKey payload
             /\ answer_verify r
                  (request_config (axiosInstance (client w))
                     (token (client w)) "/api/v1/verify/key" payload)
                = Fulfilled response
             /\ resp_data response = Some data
             /\ key data = Some k /\ k <> ""
             /\ token (client (perform r c w)) = Some k).
Proof.
  intros Htok Hne. split.
  - apply truthy_true, run_truthy, truthy_true. eauto.
  - intros r c. rewrite <- Htok. apply perform_token.
Qed.

Lemma token_stays_nonempty_witness :
  token (client token_world) = Some "eyJ0eX"
  /\ exists t',
       token (client (run [(stingy, VerifyAuthKey (JObj []));
                           (stingy, Refund JNull);
                           (quiet, RequestAuthKey)] token_world)) = Some t'
       /\ t' <> "".
Proof.
  split; [reflexivity|].
  apply (token_stays_nonempty _ token_world "eyJ0eX");
    [reflexivity | discriminate].
Defined.

(** * Further properties of the client *)

(** ** Sequences of calls, once more *)

Lemma run_app (s1 s2 : list (Remote * Call)) (w : World) :
  run (s1 ++ s2) w = run s2 (run s1 w).
Proof. unfold run. apply foldl_app. Qed.

(** Only [verifyAuthKey] writes to the client object. *)
Lemma perform_not_verify (r : Remote) (c : Call) (w : World) :
  is_verify c = false -> client (perform r c w) = client w.
Proof.
  destruct c as [| |payload|payload|payload|payload]; simpl; intros Hc;
    try discriminate.
  - reflexivity.
  - pose proof (requestAuthKey_eq (answer r) w) as E. simpl in E.
    now rewrite E.
  - pose proof (payment_eq OpPurchaseRequest (answer r) payload w) as E.
    simpl in E. rewrite E. now destruct (truthy _).
  - pose proof (payment_eq OpPurchaseConfirm (answer r) payload w) as E.
    simpl in E. rewrite E. now destruct (truthy _).
  - pose proof (payment_eq OpRefund (answer r) payload w) as E.
    simpl in E. rewrite E. now destruct (truthy _).
Qed.

(** Without a usable token, a call that is no step of authentication does
    nothing at all. *)
Lemma perform_guarded_falsy (r : Remote) (c : Call) (w : World) :
  truthy (token (client w)) = false -> auth_step c = false ->
  perform r c w = w.
Proof.
  intros Hfalsy.
  destruct c as [| |payload|payload|payload|payload]; simpl; intros Hc;
    try discriminate.
  - reflexivity.
  - pose proof (payment_eq OpPurchaseRequest (answer r) payload w) as E.
    simpl in E. now rewrite E, Hfalsy.
  - pose proof (payment_eq OpPurchaseConfirm (answer r) payload w) as E.
    simpl in E. now rewrite E, Hfalsy.
  - pose proof (payment_eq OpRefund (answer r) payload w) as E.
    simpl in E. now rewrite E, Hfalsy.
Qed.

(** With a usable token, every method but [getToken] sends one request. *)
Lemma perform_truthy_length (r : Remote) (c : Call) (w : World) :
  truthy (token (client w)) = true ->
  length (wire (perform r c w))
  = length (wire w) + (if is_remote c then 1 else 0).
Proof.
  intros Hyes.
  destruct c as [| |payload|payload|payload|payload]; simpl.
  - lia.
  - pose proof (requestAuthKey_eq (answer r) w) as E. simpl in E.
    rewrite E. simpl. now rewrite length_app.
  - pose proof (verifyAuthKey_eq (answer_verify r) payload w) as E.
    simpl in E. rewrite E.
    destruct (answer_verify r _) as [response|reason]; simpl;
      [|now rewrite length_app].
    destruct (resp_data response) as [data|]; simpl;
      [|now rewrite length_app].
    destruct (truthy (key data)); simpl; now rewrite length_app.
  - pose proof (payment_eq OpPurchaseRequest (answer r) payload w) as E.
    simpl in E. rewrite E, Hyes. simpl. now rewrite length_app.
  - pose proof (payment_eq OpPurchaseConfirm (answer r) payload w) as E.
    simpl in E. rewrite E, Hyes. simpl. now rewrite length_app.
  - pose proof (payment_eq OpRefund (answer r) payload w) as E.
    simpl in E. rewrite E, Hyes. simpl. now rewrite length_app.
Qed.

(** The request of a call goes to one of the five paths. *)
Lemma perform_wire_paths (r : Remote) (c : Call) (w : World) :
  wire (perform r c w) = wire w
  \/ exists url data,
       In url paths
       /\ wire (perform r c w)
          = wire w ++ [request_config (axiosInstance (client w))
                         (token (client w)) url data].
Proof.
  destruct c as [| |payload|payload|payload|payload]; simpl.
  - auto.
  - pose proof (requestAuthKey_eq (answer r) w) as E. simpl in E.
    rewrite E. simpl. right. do 2 eexists. split; [|reflexivity].
    simpl. auto.
  - pose proof (verifyAuthKey_eq (answer_verify r) payload w) as E.
    simpl in E. rewrite E. right. exists "/api/v1/verify/key", payload.
    split; [simpl; auto|].
    destruct (answer_verify r _) as [response|reason]; simpl; auto.
    destruct (resp_data response) as [data|]; simpl; auto.
    destruct (truthy (key data)); simpl; auto.
  - pose proof (payment_eq OpPurchaseRequest (answer r) payload w) as E.
    simpl in E. rewrite E. destruct (truthy _); simpl; auto.
    right. do 2 eexists. split; [|reflexivity]. simpl. auto.
  - pose proof (payment_eq OpPurchaseConfirm (answer r) payload w) as E.
    simpl in E. rewrite E. destruct (truthy _); simpl; auto.
    right. do 2 eexists. split; [|reflexivity]. simpl. auto.
  - pose proof (payment_eq OpRefund (answer r) payload w) as E.
    simpl in E. rewrite E. destruct (truthy _); simpl; auto 10.
    right. do 2 eexists. split; [|reflexivity]. simpl. auto 10.
Qed.

(** The requests of a client fresh from the constructor. *)
Lemma constructor_request (cfg : FloosakClientConfig.t)
    (tok : option string) (url : string) (data : json) :
  let axiosConfig :=
    request_config (axiosInstance (constructor cfg)) tok url data in
  req_method axiosConfig = "post"
  /\ req_baseURL axiosConfig = FloosakClientConfig.baseUrl cfg
  /\ req_url axiosConfig = url
  /\ req_data axiosConfig = data
  /\ req_headers axiosConfig !! "Content-Type" = Some "application/json"
  /\ req_headers axiosConfig !! "Accept" = Some "application/json"
  /\ req_headers axiosConfig !! "x-channel" = Some "merchant"
  /\ (forall t, tok = Some t -> t <> "" ->
      req_headers axiosConfig !! "Authorization" = Some ("Bearer " +:+ t))
  /\ (truthy tok = false -> req_headers axiosConfig !! "Authorization" = None).
Proof. exact (constructed_request cfg [] tok url data). Qed.

(** A property of the requests a constructed client can build holds of
    everything it ever sends. *)
Lemma wire_invariant (P : AxiosRequestConfig -> Prop)
    (cfg : FloosakClientConfig.t) :
  (forall tok url data,
     In url paths ->
     P (request_config (axiosInstance (constructor cfg)) tok url data)) ->
  forall script, Forall P (wire (run script (boot cfg))).
Proof.
  intros HP script.
  assert (forall w,
            axiosInstance (client w) = axiosInstance (constructor cfg) ->
            Forall P (wire w) -> Forall P (wire (run script w))) as Hgen.
  { induction script as [|[r c] script IH]; intros w Hinst Hw.
    - exact Hw.
    - rewrite run_cons. simpl. apply IH.
      + destruct (perform_frame r c w) as [-> _]. exact Hinst.
      + destruct (perform_wire_paths r c w)
          as [-> | (url & data & Hin & ->)]; [exact Hw|].
        apply Forall_app. split; [exact Hw|].
        constructor; [|constructor]. rewrite Hinst. now apply HP. }
  apply Hgen; [reflexivity | constructor].
Qed.

(** ** Who writes the token *)

(** X1: a sequence of calls without [verifyAuthKey] leaves the client object
    as it was, token included, whatever the network answers: the responses
    of [requestAuthKey] and of the payment methods are never stored. *)
Theorem only_verify_writes (script : list (Remote * Call)) (w : World) :
  Forall (fun rc => is_verify (snd rc) = false) script ->
  client (run script w) = client w.
Proof.
  revert w. induction script as [|[r c] script IH]; intros w Hscript.
  - reflexivity.
  - inversion Hscript as [|rc rest Hc Hrest]; subst.
    rewrite run_cons. simpl in *. rewrite (IH _ Hrest).
    now apply perform_not_verify.
Qed.

Lemma only_verify_writes_witness :
  client (run [(generous, RequestAuthKey);
               (generous, PurchaseRequest (JObj [("key", JStr "other")]));
               (stingy, Refund JNull);
               (quiet, GetToken)] token_world)
  = client token_world.
Proof.
  apply only_verify_writes. repeat constructor.
Defined.


(** ** What goes out *)

(** X2: calls only append to what was sent, and a sequence of [n] calls
    sends at most [n] requests: no method sends twice. *)
Theorem wire_grows (script : list (Remote * Call)) (w : World) :
  exists out,
    wire (run script w) = wire w ++ out /\ length out <= length script.
Proof.
  revert w. induction script as [|[r c] script IH]; intros w.
  - exists []. split; [now rewrite app_nil_r | reflexivity].
  - rewrite run_cons. simpl.
    destruct (IH (perform r c w)) as (out & Hout & Hlen).
    destruct (perform_wire r c w) as [Hsame | (url & data & Hone)].
    + exists out. rewrite Hout, Hsame. split; [reflexivity | lia].
    + eexists (_ :: out). rewrite Hout, Hone, <- app_assoc.
      split; [reflexivity | simpl; lia].
Qed.

(** X3: while the token is absent or empty, a sequence made of payment
    calls and [getToken] changes nothing and sends nothing. *)
Theorem unauthenticated_sends_nothing (script : list (Remote * Call))
    (w : World) :
  truthy (token (client w)) = false ->
  Forall (fun rc => auth_step (snd rc) = false) script ->
  run script w = w.
Proof.
  intros Hfalsy Hscript. induction Hscript as [|[r c] script Hc _ IH].
  - reflexivity.
  - rewrite run_cons. simpl in *.
    now rewrite (perform_guarded_falsy r c w Hfalsy Hc).
Qed.

Lemma unauthenticated_sends_nothing_witness :
  run [(generous, PurchaseRequest (PurchaseRequestPayload_json
                                     purchase_example));
       (generous, GetToken);
       (generous, PurchaseConfirm (JObj []));
       (generous, Refund (JObj []))] empty_world
  = empty_world.
Proof.
  apply unauthenticated_sends_nothing; [reflexivity | repeat constructor].
Defined.

(** X10: with a non-empty token, every call of a method other than
    [getToken] sends exactly one request, whether the network fulfils or
    rejects it. *)
Theorem authenticated_one_request_per_call (script : list (Remote * Call))
    (w : World) :
  truthy (token (client w)) = true ->
  length (wire (run script w))
  = length (wire w)
    + length (filter (fun rc => is_remote (snd rc) = true) script).
Proof.
  revert w. induction script as [|[r c] script IH]; intros w Hyes.
  - simpl. lia.
  - rewrite run_cons. simpl fst. simpl snd.
    rewrite IH by apply (run_truthy [(r, c)] w Hyes).
    rewrite (perform_truthy_length r c w Hyes).
    rewrite filter_cons. simpl snd.
    destruct c; simpl; lia.
Qed.

Lemma authenticated_one_request_per_call_witness :
  length (wire (run [(stingy, PurchaseRequest JNull);
                     (stingy, GetToken);
                     (stingy, VerifyAuthKey (JObj []));
                     (quiet, Refund JNull)] token_world))
  = 3.
Proof.
  rewrite (authenticated_one_request_per_call _ token_world eq_refl).
  reflexivity.
Defined.

(** X6: everything a constructed client ever sends is a POST, to the base
    URL the constructor was given, on one of the five paths. *)
Theorem requests_are_posts (cfg : FloosakClientConfig.t)
    (script : list (Remote * Call)) :
  Forall (fun axiosConfig =>
            req_method axiosConfig = "post"
            /\ req_baseURL axiosConfig = FloosakClientConfig.baseUrl cfg
            /\ In (req_url axiosConfig) paths)
    (wire (run script (boot cfg))).
Proof.
  apply wire_invariant. intros tok url data Hin.
  destruct (constructor_request cfg tok url data) as (Hm & Hb & Hu & _).
  rewrite Hm, Hb, Hu. auto.
Qed.


(** ** The methods the claims leave out *)

(** X8: [verifyAuthKey] has no guard: on a constructed client, whatever the
    token, it sends one POST to [/api/v1/verify/key] whose body is the
    payload it was given, and it completes the way the network settles. *)
Theorem verifyAuthKey_relays (cfg : FloosakClientConfig.t)
    (script : list (Remote * Call)) (net : Net (option VerifyKeyResponse))
    (payload : json) :
  exists axiosConfig,
    wire (snd (verifyAuthKey net payload (run script (boot cfg))))
    = wire (run script (boot cfg)) ++ [axiosConfig]
    /\ fst (verifyAuthKey net payload (run script (boot cfg)))
       = relay (net axiosConfig)
    /\ req_method axiosConfig = "post"
    /\ req_baseURL axiosConfig = FloosakClientConfig.baseUrl cfg
    /\ req_url axiosConfig = "/api/v1/verify/key"
    /\ req_data axiosConfig = payload.
Proof.
  pose proof (verifyAuthKey_eq net payload (run script (boot cfg))) as E.
  simpl in E. eexists. rewrite E. split; [|split].
  - destruct (net _) as [response|reason]; simpl; [|reflexivity].
    destruct (resp_data response) as [data|]; simpl; [|reflexivity].
    destruct (truthy (key data)); reflexivity.
  - now destruct (net _).
  - match goal with
    | |- context [request_config _ ?tok ?url ?data] =>
        destruct (constructed_request cfg script tok url data)
          as (Hm & Hb & Hu & Hd & _)
    end.
    auto.
Qed.

(** X9: on a constructed client that passes the guard, [purchaseConfirm]
    and [refund] each send one POST, to [/api/v1/merchant/p2mcl/confirm] and
    to [/api/v1/merchant/p2mcl/refund], whose body is the payload given, and
    complete the way the network settles. *)
Theorem confirm_and_refund_forward_payload (cfg : FloosakClientConfig.t)
    (script : list (Remote * Call)) (net : Net json) (payload : json) :
  fst (ensureAuthenticated (run script (boot cfg))) = Returned tt ->
  (exists axiosConfig,
     purchaseConfirm net payload (run script (boot cfg))
     = (relay (net axiosConfig), sent (run script (boot cfg)) axiosConfig)
     /\ req_method axiosConfig = "post"
     /\ req_baseURL axiosConfig = FloosakClientConfig.baseUrl cfg
     /\ req_url axiosConfig = "/api/v1/merchant/p2mcl/confirm"
     /\ req_data axiosConfig = payload)
  /\ (exists axiosConfig,
        refund net payload (run script (boot cfg))
        = (relay (net axiosConfig), sent (run script (boot cfg)) axiosConfig)
        /\ req_method axiosConfig = "post"
        /\ req_baseURL axiosConfig = FloosakClientConfig.baseUrl cfg
        /\ req_url axiosConfig = "/api/v1/merchant/p2mcl/refund"
        /\ req_data axiosConfig = payload).
Proof.
  intros Hauth. rewrite ensureAuthenticated_eq in Hauth.
  pose proof (payment_eq OpPurchaseConfirm net payload
                (run script (boot cfg))) as Ec.
  pose proof (payment_eq OpRefund net payload
                (run script (boot cfg))) as Er.
  simpl in Ec, Er.
  destruct (truthy (token (client (run script (boot cfg)))));
    [|discriminate].
  split; (eexists; split; [eassumption|]);
    match goal with
    | |- context [request_config _ ?tok ?url ?data] =>
        destruct (constructed_request cfg script tok url data)
          as (Hm & Hb & Hu & Hd & _)
    end; auto.
Qed.

Lemma confirm_and_refund_forward_payload_witness :
  fst (ensureAuthenticated (run [(generous, VerifyAuthKey (JObj []))]
                              (boot (merchant None))))
  = Returned tt
  /\ exists axiosConfig,
       wire (snd (refund (fails unauthorized)
                    (JObj [("transaction_id", JNum 267316);
                           ("request_id", JStr "r2");
                           ("amount", JNum 100)])
                    (run [(generous, VerifyAuthKey (JObj []))]
                       (boot (merchant None)))))
       = wire (run [(generous, VerifyAuthKey (JObj []))]
                 (boot (merchant None))) ++ [axiosConfig]
       /\ req_data axiosConfig
          = JObj [("transaction_id", JNum 267316);
                  ("request_id", JStr "r2");
                  ("amount", JNum 100)].
Proof.
  split; [reflexivity|].
  destruct (confirm_and_refund_forward_payload (merchant None)
              [(generous, VerifyAuthKey (JObj []))] (fails unauthorized)
              (JObj [("transaction_id", JNum 267316);
                     ("request_id", JStr "r2");
                     ("amount", JNum 100)]) eq_refl)
    as (_ & axiosConfig & E & _ & _ & _ & Hdata).
  exists axiosConfig. rewrite E. auto.
Defined.

(** ** The two steps of authentication, then a payment *)

(** X4: when [verifyAuthKey] on a constructed client is answered with a
    non-empty key [k], every payment call made next passes the guard, goes
    to the network, and carries [Authorization: Bearer k]: the interceptor
    reads the token of the moment, not the one given to the constructor. *)
Theorem verified_key_is_used (cfg : FloosakClientConfig.t)
    (script : list (Remote * Call)) (net : Net (option VerifyKeyResponse))
    (payload : json) (response : AxiosResponse (option VerifyKeyResponse))
    (data : VerifyKeyResponse) (k : string) :
  net (request_config (axiosInstance (client (run script (boot cfg))))
         (token (client (run script (boot cfg))))
         "/api/v1/verify/key" payload) = Fulfilled response ->
  resp_data response = Some data -> key data = Some k -> k <> "" ->
  forall op net' payload',
  exists axiosConfig,
    payment op net' payload'
      (snd (verifyAuthKey net payload (run script (boot cfg))))
    = (relay (net' axiosConfig),
       sent (snd (verifyAuthKey net payload (run script (boot cfg))))
         axiosConfig)
    /\ req_url axiosConfig = endpoint op
    /\ req_data axiosConfig = payload'
    /\ req_headers axiosConfig !! "Authorization" = Some ("Bearer " +:+ k).
Proof.
  intros Hnet Hdata Hkey Hne op net' payload'.
  pose proof (verifyAuthKey_eq net payload (run script (boot cfg))) as E.
  simpl in E. rewrite Hnet, Hdata, Hkey in E.
  assert (truthy (Some k) = true) as Hk by (apply truthy_true; eauto).
  rewrite Hk in E. rewrite E. simpl snd.
  match goal with
  | |- context [payment op net' payload' ?w1] => remember w1 as w' eqn:Hw'
  end.
  assert (token (client w') = Some k) as Htok by (subst w'; reflexivity).
  assert (axiosInstance (client w')
          = axiosInstance (client (run script (boot cfg)))) as Hinst
    by (subst w'; reflexivity).
  pose proof (payment_eq op net' payload' w') as Ep.
  cbv zeta in Ep. rewrite Htok, Hinst, Hk in Ep.
  eexists. split; [exact Ep|].
  destruct (constructed_request cfg script (Some k) (endpoint op) payload')
    as (_ & _ & Hu & Hd & _ & _ & _ & Hauth & _).
  split; [exact Hu|]. split; [exact Hd|]. apply Hauth; auto.
Qed.

Lemma verified_key_is_used_witness :
  exists axiosConfig,
    payment OpPurchaseRequest (replies JNull)
      (PurchaseRequestPayload_json purchase_example)
      (snd (verifyAuthKey (replies (Some fresh_key)) (JObj [])
              (run [] (boot (merchant (Some "old-token"))))))
    = (Returned JNull,
       sent (snd (verifyAuthKey (replies (Some fresh_key)) (JObj [])
                    (run [] (boot (merchant (Some "old-token"))))))
         axiosConfig)
    /\ req_headers axiosConfig !! "Authorization" = Some "Bearer eyJ0eX".
Proof.
  destruct (verified_key_is_used (merchant (Some "old-token")) []
              (replies (Some fresh_key)) (JObj [])
              {| resp_status := 200; resp_data := Some fresh_key |}
              fresh_key "eyJ0eX" eq_refl eq_refl eq_refl
              ltac:(discriminate)
              OpPurchaseRequest (replies JNull)
              (PurchaseRequestPayload_json purchase_example))
    as (axiosConfig & E & _ & _ & Hauth).
  exists axiosConfig. split; [exact E | exact Hauth].
Defined.

(** ** The interceptor on any request *)

